(** * Binding resolvers of the CDK construct libraries

    A shallow embedding of three construct families and of the properties
    their specification states about them:

    - [EventsTargets]: the [EventBus] rule target ([bind],
      [putEventStatement]);
    - [ApiGatewayV2]: the HTTP integration ([HttpIntegrationType],
      [HttpConnectionType], [HttpIntegrationSubtype],
      [PayloadFormatVersion], [IntegrationCredentials], [HttpIntegration]);
    - [CloudFront]: the origin request policy (the three behaviour enums,
      their configuration records, [OriginRequestPolicy]).

    Every class, interface and enum is a module holding its type [t].  A
    TypeScript string enum is an inductive type with a function [value]
    giving each member's run-time string.  An optional field [f?: T] is an
    [option T].  Objects that the code mutates through a shared reference
    (IAM roles) live in an explicit side table; constructors run against
    the output tree built so far. *)

From stdpp Require Import base option list strings gmap fin_maps.

Local Open Scope string_scope.
Local Open Scope list_scope.

(** ** Core: constructs, exceptions and the output tree *)

Module Core.

(** A construct is identified by the path of ids that leads to it from
    the root of the construct tree. *)
Abbreviation Construct := (list string) (only parsing).

(** The result of running code that may throw. *)
Inductive Outcome (A : Type) : Type :=
| Done (a : A)
| Thrown (message : string).
Arguments Done {A} a.
Arguments Thrown {A} message.

(** A low-level resource of the output tree: where it sits and the
    configuration record it was constructed with. *)
Record Node (R : Type) : Type := mkNode {
  nodePath : Construct;
  nodeProps : R;
}.
Arguments mkNode {R} nodePath nodeProps.
Arguments nodePath {R} n.
Arguments nodeProps {R} n.

(** Construction code runs against the output tree built so far and
    either completes with a value and the extended tree, or throws. *)
Definition Construction (R A : Type) : Type :=
  list (Node R) → Outcome (A * list (Node R)).

#[export] Instance construction_ret {R} : MRet (Construction R) :=
  λ A a tree, Done (a, tree).

#[export] Instance construction_bind {R} : MBind (Construction R) :=
  λ A B k m tree,
    match m tree with
    | Done (a, tree') => k a tree'
    | Thrown msg => Thrown msg
    end.

(** Modelled from the spec: the base class [core.Resource] (package
    [@aws-cdk/core], whose source is outside this development).
    [super(scope, id)] makes the new construct the child [id] of [scope];
    it holds no configuration of its own and emits nothing. *)
Definition Resource_new {R} (scope : Construct) (id : string)
  : Construction R Construct :=
  mret (scope ++ [id]).

(** Modelled from the spec: "a generated low-level resource constructor
    (opaque; accepts a configuration record, returns a
    reference/identifier)".  The generated [Cfn*] classes are outside this
    development.  Constructing one appends the record to the output tree
    under [scope]/[id] and returns the new node's path, from which its
    references are formed. *)
Definition CfnResource_new {R} (scope : Construct) (id : string) (props : R)
  : Construction R Construct :=
  λ tree, Done (scope ++ [id], tree ++ [mkNode (scope ++ [id]) props]).

(** Modelled from the spec: the "stable reference/identifier" of a
    resource node, as the string that stands for it: [resource.ref], and
    [resource.attrId] for one of its attributes. *)
Definition ref (resource : Construct) : string :=
  "${Ref:" +:+ String.concat "/" resource +:+ "}".

(** Modelled from the spec: the reference to an attribute of a node. *)
Definition attr (resource : Construct) (name : string) : string :=
  "${GetAtt:" +:+ String.concat "/" resource +:+ "." +:+ name +:+ "}".

(** A declarative template fragment: literal strings, lists and ordered
    key/value mappings. *)
#[warnings="-register-all"] Inductive Fragment : Type :=
| FString (s : string)
| FList (items : list Fragment)
| FObject (fields : list (string * Fragment)).

(** A key whose value is [undefined] is left out of the rendered
    mapping. *)
Definition field {A} (key : string) (render : A → Fragment) (value : option A)
  : list (string * Fragment) :=
  match value with
  | Some v => [(key, render v)]
  | None => []
  end.

(** Reading a key of a rendered mapping. *)
Fixpoint assoc {A} (key : string) (fields : list (string * A)) : option A :=
  match fields with
  | [] => None
  | (k, v) :: rest => if String.eqb k key then Some v else assoc key rest
  end.

Definition get (key : string) (f : Fragment) : option Fragment :=
  match f with
  | FObject fields => assoc key fields
  | _ => None
  end.

(** JavaScript truthiness of an optional string: [undefined] and the
    empty string are falsy. *)
Definition truthy (s : option string) : bool :=
  match s with
  | Some v => negb (String.eqb v "")
  | None => false
  end.

End Core.

(** ** IAM: policy statements and the principals they are attached to *)

Module Iam.

(** [new iam.PolicyStatement({ actions, resources })]: an (action-set,
    resource-set) pair. *)
Record PolicyStatement : Type := mkPolicyStatement {
  actions : list string;
  resources : list string;
}.

#[export] Instance PolicyStatement_eq_dec : EqDecision PolicyStatement.
Proof. solve_decision. Defined.

(** A role is a mutable object; [IRole] is the reference to it. *)
Abbreviation IRole := positive (only parsing).

(** The side table the resolvers share: the statements attached to each
    principal, and the principal synthesized for each scope. *)
Record Store : Type := mkStore {
  policies : gmap IRole (list PolicyStatement);
  eventRoles : gmap Core.Construct IRole;
}.

Definition emptyStore : Store := mkStore ∅ ∅.

(** Code that reads and updates the side table. *)
Definition State (A : Type) : Type := Store → A * Store.

#[export] Instance state_ret : MRet State := λ A a s, (a, s).

#[export] Instance state_bind : MBind State :=
  λ A B k m s, let '(a, s') := m s in k a s'.

(** The statements attached to a principal. *)
Definition statements (s : Store) (role : IRole) : list PolicyStatement :=
  default [] (policies s !! role).

Definition attach (statement : PolicyStatement) (policy : list PolicyStatement)
  : list PolicyStatement :=
  if decide (statement ∈ policy) then policy else policy ++ [statement].

(** Modelled from the spec: [iam.IRole.addToPolicy] (package
    [@aws-cdk/aws-iam], whose source is outside this development) is the
    identity/policy primitive that "supports attachment to a principal";
    the side table it updates has "merge semantics for repeated identical
    grants (add-if-absent, never remove)". *)
Definition addToPolicy (role : IRole) (statement : PolicyStatement) : State unit :=
  λ s, (tt, mkStore (<[role := attach statement (statements s role)]> (policies s))
                    (eventRoles s)).

(** [statements.forEach(f)]: run [f] on each element in order. *)
Fixpoint forEach {A} (l : list A) (f : A → State unit) : State unit :=
  match l with
  | [] => mret tt
  | x :: rest => _ ← f x; forEach rest f
  end.

(** How many times a statement occurs in a policy. *)
Definition occurrences (statement : PolicyStatement) (policy : list PolicyStatement) : nat :=
  count_occ PolicyStatement_eq_dec policy statement.

(** Every principal holds each of its statements once. *)
Definition wf_store (s : Store) : Prop :=
  map_Forall (λ _ policy, NoDup policy) (policies s).

#[export] Instance wf_store_dec s : Decision (wf_store s).
Proof. unfold wf_store. apply _. Defined.

End Iam.

(** ** aws-events-targets: the event bus target *)

Module EventsTargets.
Import Core Iam.

(** The scope a target is bound in; only its identity matters here. *)
Abbreviation IRule := Construct (only parsing).

(** [events.RuleTargetConfig], restricted to the fields [bind] sets. *)
Module RuleTargetConfig.
Record t : Type := mk {
  id : string;
  arn : string;
  role : option IRole;
}.
End RuleTargetConfig.

(** Modelled from the spec: [singletonEventRole] (file [./util], outside
    this development) must "synthesize exactly one principal shared across
    all bindings requesting the same scope, attaching the minimal-required
    capability statement", over "an explicit side table keyed by scope"
    whose grants are add-if-absent. *)
Definition singletonEventRole (scope : Construct) (policyStatements : list PolicyStatement)
  : State IRole :=
  role ← (λ s,
    match eventRoles s !! scope with
    | Some existing => (existing, s)
    | None =>
        let created := fresh (dom (policies s)) in
        (created, mkStore (<[created := []]> (policies s))
                          (<[scope := created]> (eventRoles s)))
    end);
  _ ← forEach policyStatements (addToPolicy role);
  mret role.

Module EventBusProps.
Record t : Type := mk {
  eventBusArn : string;
  role : option IRole;
}.
End EventBusProps.

Module EventBus.
Record t : Type := mk {
  eventBusArn : string;
  role : option IRole;
}.

Definition new (props : EventBusProps.t) : t :=
  {| eventBusArn := EventBusProps.eventBusArn props;
     role := EventBusProps.role props |}.

Definition putEventStatement (this : t) : PolicyStatement :=
  {| actions := ["events:PutEvents"];
     resources := [eventBusArn this] |}.

Definition bind (this : t) (rule : IRule) (id : option string)
  : State RuleTargetConfig.t :=
  _ ← (match role this with
       | Some r => addToPolicy r (putEventStatement this)
       | None => mret tt
       end);
  role ← (match role this with
          | Some r => mret r
          | None => singletonEventRole rule [putEventStatement this]
          end);
  mret {| RuleTargetConfig.id := if truthy id then default "" id else "";
          RuleTargetConfig.arn := eventBusArn this;
          RuleTargetConfig.role := Some role |}.
End EventBus.

(** *** Views used to state what [bind] does *)

(** The fragment [bind] returns for the principal it settled on. *)
Definition config_for (this : EventBus.t) (id : option string) (principal : IRole)
  : RuleTargetConfig.t :=
  {| RuleTargetConfig.id := if truthy id then default "" id else "";
     RuleTargetConfig.arn := EventBus.eventBusArn this;
     RuleTargetConfig.role := Some principal |}.

(** The side table once [scope] has been given the fresh principal. *)
Definition with_created (scope : Construct) s : Store :=
  mkStore (<[fresh (dom (policies s)) := []]> (policies s))
          (<[scope := fresh (dom (policies s))]> (eventRoles s)).

(** The control flow of [EventBus.bind] with the two operations it calls
    on the IAM side left open. *)
Definition bindWith
    (addToPolicy : positive → PolicyStatement → State unit)
    (singletonEventRole : list string → list PolicyStatement → State positive)
    (this : EventBus.t) (rule : IRule) (id : option string)
  : State RuleTargetConfig.t :=
  _ ← (match EventBus.role this with
       | Some r => addToPolicy r (EventBus.putEventStatement this)
       | None => mret tt
       end);
  role ← (match EventBus.role this with
          | Some r => mret r
          | None => singletonEventRole rule [EventBus.putEventStatement this]
          end);
  mret {| RuleTargetConfig.id := if truthy id then default "" id else "";
          RuleTargetConfig.arn := EventBus.eventBusArn this;
          RuleTargetConfig.role := Some role |}.

End EventsTargets.

(** ** aws-apigatewayv2: HTTP integrations *)

Module ApiGatewayV2.
Import Core.

(** Supported integration types. *)
Module HttpIntegrationType.
Inductive t : Type := LAMBDA_PROXY | HTTP_PROXY.

Definition value (x : t) : string :=
  match x with
  | LAMBDA_PROXY => "AWS_PROXY"
  | HTTP_PROXY => "HTTP_PROXY"
  end.
End HttpIntegrationType.

(** Supported connection types. *)
Module HttpConnectionType.
Inductive t : Type := VPC_LINK | INTERNET.

Definition value (x : t) : string :=
  match x with
  | VPC_LINK => "VPC_LINK"
  | INTERNET => "INTERNET"
  end.
End HttpConnectionType.

(** Supported integration subtypes. *)
Module HttpIntegrationSubtype.
Inductive t : Type :=
| EVENTBRIDGE_PUTEVENTS
| SQS_SENDMESSAGE
| SQS_RECEIVEMESSAGE
| SQS_DELETEMESSAGE.

Definition value (x : t) : string :=
  match x with
  | EVENTBRIDGE_PUTEVENTS => "EventBridge-PutEvents"
  | SQS_SENDMESSAGE => "SQS-SendMessage"
  | SQS_RECEIVEMESSAGE => "SQS-ReceiveMessage"
  | SQS_DELETEMESSAGE => "SQS-DeleteMessage"
  end.
End HttpIntegrationSubtype.

(** Payload format version for lambda proxy integration: a class with a
    private constructor, two static instances and [custom]. *)
Module PayloadFormatVersion.
Record t : Type := mk { version : string }.

Definition VERSION_1_0 : t := mk "1.0".
Definition VERSION_2_0 : t := mk "2.0".
Definition custom (version : string) : t := mk version.
End PayloadFormatVersion.

(** The one member of [iam.IRole] this file reads. *)
Module IRole.
Record t : Type := mk { roleArn : string }.
End IRole.

(** Credentials used for AWS Service integrations. *)
Module IntegrationCredentials.
Record t : Type := mk { credentials : string }.

Definition useCallerIdentity : t := mk "arn:aws:iam::*:user/*".

(** Use the specified role for integration requests. *)
Definition fromRole (role : IRole.t) : t := mk (IRole.roleArn role).
End IntegrationCredentials.

(** [HttpMethod] is a string enum declared in [./route]; a member is its
    run-time string. *)
Definition HttpMethod : Type := string.

Module IHttpApi.
Record t : Type := mk { apiId : string }.
End IHttpApi.

(** The integration properties. *)
Module HttpIntegrationProps.
Record t : Type := mk {
  httpApi : IHttpApi.t;
  integrationType : HttpIntegrationType.t;
  integrationSubtype : option HttpIntegrationSubtype.t;
  integrationUri : option string;
  method : option HttpMethod;
  connectionId : option string;
  connectionType : option HttpConnectionType.t;
  credentials : option IntegrationCredentials.t;
  payloadFormatVersion : option PayloadFormatVersion.t;
  requestParameters : option Fragment;
}.
End HttpIntegrationProps.

(** The configuration record handed to the generated [CfnIntegration];
    enum members arrive as their strings. *)
Module CfnIntegrationProps.
Record t : Type := mk {
  apiId : string;
  integrationType : string;
  integrationSubtype : option string;
  integrationUri : option string;
  integrationMethod : option string;
  connectionId : option string;
  connectionType : option string;
  credentialsArn : option string;
  payloadFormatVersion : option string;
  requestParameters : option Fragment;
}.
End CfnIntegrationProps.

(** The integration for an API route. *)
Module HttpIntegration.
Record t : Type := mk {
  integrationId : string;
  httpApi : IHttpApi.t;
}.

Definition new (scope : Construct) (id : string) (props : HttpIntegrationProps.t)
  : Construction CfnIntegrationProps.t t :=
  this ← Resource_new scope id;
  integ ← CfnResource_new this "Resource"
    {| CfnIntegrationProps.apiId := IHttpApi.apiId (HttpIntegrationProps.httpApi props);
       CfnIntegrationProps.integrationType :=
         HttpIntegrationType.value (HttpIntegrationProps.integrationType props);
       CfnIntegrationProps.integrationSubtype :=
         HttpIntegrationSubtype.value <$> HttpIntegrationProps.integrationSubtype props;
       CfnIntegrationProps.integrationUri := HttpIntegrationProps.integrationUri props;
       CfnIntegrationProps.integrationMethod := HttpIntegrationProps.method props;
       CfnIntegrationProps.connectionId := HttpIntegrationProps.connectionId props;
       CfnIntegrationProps.connectionType :=
         HttpConnectionType.value <$> HttpIntegrationProps.connectionType props;
       CfnIntegrationProps.credentialsArn :=
         IntegrationCredentials.credentials <$> HttpIntegrationProps.credentials props;
       CfnIntegrationProps.payloadFormatVersion :=
         PayloadFormatVersion.version <$> HttpIntegrationProps.payloadFormatVersion props;
       CfnIntegrationProps.requestParameters := HttpIntegrationProps.requestParameters props |};
  mret {| integrationId := ref integ;
          httpApi := HttpIntegrationProps.httpApi props |}.
End HttpIntegration.

End ApiGatewayV2.

(** ** aws-cloudfront: origin request policies *)

Module CloudFront.
Import Core.

(** Whether cookies in viewer requests are included in origin requests. *)
Module CookiesCacheBehaviorType.
Inductive t : Type := NONE | WHITELIST | ALL.

Definition value (x : t) : string :=
  match x with
  | NONE => "none"
  | WHITELIST => "whitelist"
  | ALL => "all"
  end.
End CookiesCacheBehaviorType.

Module CookiesConfig.
Record t : Type := mk {
  cookieBehavior : CookiesCacheBehaviorType.t;
  cookies : option (list string);
}.
End CookiesConfig.

(** Whether any HTTP headers are included in origin requests. *)
Module HeadersCacheBehaviorType.
Inductive t : Type :=
| NONE
| WHITELIST
| ALL_VIEWER
| ALL_VIEWER_AND_WHITELIST_CLOUDFRONT.

Definition value (x : t) : string :=
  match x with
  | NONE => "none"
  | WHITELIST => "whitelist"
  | ALL_VIEWER => "allViewer"
  | ALL_VIEWER_AND_WHITELIST_CLOUDFRONT => "allViewerAndWhitelistCloudFront"
  end.
End HeadersCacheBehaviorType.

Module HeadersConfig.
Record t : Type := mk {
  headerBehavior : HeadersCacheBehaviorType.t;
  headers : option (list string);
}.
End HeadersConfig.

(** Whether any URL query strings are included in origin requests. *)
Module QueryStringCacheBehaviorType.
Inductive t : Type := NONE | WHITELIST | ALL.

Definition value (x : t) : string :=
  match x with
  | NONE => "none"
  | WHITELIST => "whitelist"
  | ALL => "all"
  end.
End QueryStringCacheBehaviorType.

Module QueryStringConfig.
Record t : Type := mk {
  queryStringBehavior : QueryStringCacheBehaviorType.t;
  queryStrings : option (list string);
}.
End QueryStringConfig.

(** Origin Request Policy Properties. *)
Module OriginRequestPolicyProps.
Record t : Type := mk {
  name : string;
  comment : option string;
  cookiesConfig : CookiesConfig.t;
  headersConfig : HeadersConfig.t;
  queryStringsConfig : QueryStringConfig.t;
}.
End OriginRequestPolicyProps.

(** The [originRequestPolicyConfig] object handed to the generated
    [CfnOriginRequestPolicy]: the three nested configuration objects are
    the caller's own, passed by reference. *)
Module OriginRequestPolicyConfigProperty.
Record t : Type := mk {
  name : string;
  comment : option string;
  cookiesConfig : CookiesConfig.t;
  headersConfig : HeadersConfig.t;
  queryStringsConfig : QueryStringConfig.t;
}.
End OriginRequestPolicyConfigProperty.

Module CfnOriginRequestPolicyProps.
Record t : Type := mk {
  originRequestPolicyConfig : OriginRequestPolicyConfigProperty.t;
}.
End CfnOriginRequestPolicyProps.

(** Modelled from the spec: how the generated [CfnOriginRequestPolicy]
    (file [./cloudfront.generated], outside this development) renders its
    configuration record into the template.  The expected templates of
    [origin-request-policy.test.ts] fix the keys: each property under its
    capitalised name, a behaviour as its literal string, and no key for an
    absent list or comment. *)
Definition renderNames (names : list string) : Fragment :=
  FList (FString <$> names).

(** Modelled from the spec: the rendering of a [CookiesConfig]. *)
Definition renderCookiesConfig (c : CookiesConfig.t) : Fragment :=
  FObject
    (("CookieBehavior", FString (CookiesCacheBehaviorType.value (CookiesConfig.cookieBehavior c)))
       :: field "Cookies" renderNames (CookiesConfig.cookies c)).

(** Modelled from the spec: the rendering of a [HeadersConfig]. *)
Definition renderHeadersConfig (c : HeadersConfig.t) : Fragment :=
  FObject
    (("HeaderBehavior", FString (HeadersCacheBehaviorType.value (HeadersConfig.headerBehavior c)))
       :: field "Headers" renderNames (HeadersConfig.headers c)).

(** Modelled from the spec: the rendering of a [QueryStringConfig]. *)
Definition renderQueryStringsConfig (c : QueryStringConfig.t) : Fragment :=
  FObject
    (("QueryStringBehavior",
      FString (QueryStringCacheBehaviorType.value (QueryStringConfig.queryStringBehavior c)))
       :: field "QueryStrings" renderNames (QueryStringConfig.queryStrings c)).

(** Modelled from the spec: the rendering of the whole resource. *)
Definition renderOriginRequestPolicy (p : CfnOriginRequestPolicyProps.t) : Fragment :=
  let c := CfnOriginRequestPolicyProps.originRequestPolicyConfig p in
  FObject
    [("OriginRequestPolicyConfig",
      FObject
        (("Name", FString (OriginRequestPolicyConfigProperty.name c))
           :: field "Comment" FString (OriginRequestPolicyConfigProperty.comment c)
           ++ [("CookiesConfig", renderCookiesConfig (OriginRequestPolicyConfigProperty.cookiesConfig c));
               ("HeadersConfig", renderHeadersConfig (OriginRequestPolicyConfigProperty.headersConfig c));
               ("QueryStringsConfig",
                renderQueryStringsConfig (OriginRequestPolicyConfigProperty.queryStringsConfig c))]))].

(** The fields of [IOriginRequestPolicy]. *)
Module IOriginRequestPolicy.
Record t : Type := mk {
  node : Construct;
  originRequestPolicyId : string;
  lastModifiedTime : string;
}.
End IOriginRequestPolicy.

(** An Origin Request Policy. *)
Module OriginRequestPolicy.
Import IOriginRequestPolicy.

(** Lookup an OriginRequestPolicy by its unique identifier: an anonymous
    subclass of [core.Resource] whose constructor sets both fields. *)
Definition fromId {R} (scope : Construct) (logicalId : string) (physicalId : string)
  : Construction R IOriginRequestPolicy.t :=
  this ← Resource_new scope logicalId;
  mret {| node := this;
          originRequestPolicyId := physicalId;
          lastModifiedTime := "" |}.

(** The constructor: the field initialisers run after [super], then the
    body assigns [originRequestPolicyId]. *)
Definition new (scope : Construct) (id : string) (props : OriginRequestPolicyProps.t)
  : Construction CfnOriginRequestPolicyProps.t IOriginRequestPolicy.t :=
  node ← Resource_new scope id;
  let this := {| node := node; originRequestPolicyId := ""; lastModifiedTime := "" |} in
  resource ← CfnResource_new node "Resource"
    {| CfnOriginRequestPolicyProps.originRequestPolicyConfig :=
         {| OriginRequestPolicyConfigProperty.name := OriginRequestPolicyProps.name props;
            OriginRequestPolicyConfigProperty.comment := OriginRequestPolicyProps.comment props;
            OriginRequestPolicyConfigProperty.cookiesConfig :=
              OriginRequestPolicyProps.cookiesConfig props;
            OriginRequestPolicyConfigProperty.headersConfig :=
              OriginRequestPolicyProps.headersConfig props;
            OriginRequestPolicyConfigProperty.queryStringsConfig :=
              OriginRequestPolicyProps.queryStringsConfig props |} |};
  mret {| node := IOriginRequestPolicy.node this;
          originRequestPolicyId := attr resource "Id";
          lastModifiedTime := lastModifiedTime this |}.
End OriginRequestPolicy.

End CloudFront.

(** ** Sample inputs *)

Module Samples.
Import Core Iam EventsTargets ApiGatewayV2 CloudFront.

Definition stack : Construct := ["Stack"].

Definition api : IHttpApi.t := IHttpApi.mk "api-1234".

(** An integration that names neither a subtype nor a URI. *)
Definition untargeted : HttpIntegrationProps.t :=
  {| HttpIntegrationProps.httpApi := api;
     HttpIntegrationProps.integrationType := HttpIntegrationType.LAMBDA_PROXY;
     HttpIntegrationProps.integrationSubtype := None;
     HttpIntegrationProps.integrationUri := None;
     HttpIntegrationProps.method := None;
     HttpIntegrationProps.connectionId := None;
     HttpIntegrationProps.connectionType := None;
     HttpIntegrationProps.credentials := None;
     HttpIntegrationProps.payloadFormatVersion := None;
     HttpIntegrationProps.requestParameters := None |}.

(** The properties of "simple OriginRequestPolicy renders properly". *)
Definition simplePolicy : OriginRequestPolicyProps.t :=
  {| OriginRequestPolicyProps.name := "OriginRequestPolicy";
     OriginRequestPolicyProps.comment := Some "comment";
     OriginRequestPolicyProps.cookiesConfig :=
       CookiesConfig.mk CookiesCacheBehaviorType.WHITELIST (Some ["x-my-cookie"]);
     OriginRequestPolicyProps.headersConfig :=
       HeadersConfig.mk HeadersCacheBehaviorType.WHITELIST (Some ["x-my-header"]);
     OriginRequestPolicyProps.queryStringsConfig :=
       QueryStringConfig.mk QueryStringCacheBehaviorType.WHITELIST (Some ["myQueryString"]) |}.

Definition busArn : string := "arn:aws:events:us-east-1:111111111111:event-bus/default".

Definition rule : IRule := ["Stack"; "Rule"].

(** A target without a role and a target with the explicit role [7]. *)
Definition plainBus : EventBus.t := EventBus.new (EventBusProps.mk busArn None).
Definition roledBus : EventBus.t := EventBus.new (EventBusProps.mk busArn (Some 7%positive)).

(** A side table in which [rule] already has its principal. *)
Definition boundOnce : Store := snd (EventBus.bind plainBus rule (Some "Target0") emptyStore).

End Samples.

(** * Properties *)

Import Core Iam EventsTargets ApiGatewayV2 CloudFront.

(** ** Enumerations and tagged values *)

Section Enums.

(** C8: [PayloadFormatVersion] wraps a string: the two named constants
    carry "1.0" and "2.0", and [custom v] carries exactly [v]. *)
Theorem PayloadFormatVersion_version :
  PayloadFormatVersion.version PayloadFormatVersion.VERSION_1_0 = "1.0"
  ∧ PayloadFormatVersion.version PayloadFormatVersion.VERSION_2_0 = "2.0"
  ∧ ∀ v : string, PayloadFormatVersion.version (PayloadFormatVersion.custom v) = v.
Proof. repeat split. Qed.

(** C4: every tag of the cookies, headers, query-string, integration-type,
    connection-type and integration-subtype enums has its documented
    literal as value, and within one enum no two tags share a literal. *)
Theorem enum_values :
  (CookiesCacheBehaviorType.value CookiesCacheBehaviorType.NONE = "none"
   ∧ CookiesCacheBehaviorType.value CookiesCacheBehaviorType.WHITELIST = "whitelist"
   ∧ CookiesCacheBehaviorType.value CookiesCacheBehaviorType.ALL = "all")
  ∧ (HeadersCacheBehaviorType.value HeadersCacheBehaviorType.NONE = "none"
     ∧ HeadersCacheBehaviorType.value HeadersCacheBehaviorType.WHITELIST = "whitelist"
     ∧ HeadersCacheBehaviorType.value HeadersCacheBehaviorType.ALL_VIEWER = "allViewer"
     ∧ HeadersCacheBehaviorType.value HeadersCacheBehaviorType.ALL_VIEWER_AND_WHITELIST_CLOUDFRONT
       = "allViewerAndWhitelistCloudFront")
  ∧ (QueryStringCacheBehaviorType.value QueryStringCacheBehaviorType.NONE = "none"
     ∧ QueryStringCacheBehaviorType.value QueryStringCacheBehaviorType.WHITELIST = "whitelist"
     ∧ QueryStringCacheBehaviorType.value QueryStringCacheBehaviorType.ALL = "all")
  ∧ (HttpIntegrationType.value HttpIntegrationType.LAMBDA_PROXY = "AWS_PROXY"
     ∧ HttpIntegrationType.value HttpIntegrationType.HTTP_PROXY = "HTTP_PROXY")
  ∧ (HttpConnectionType.value HttpConnectionType.VPC_LINK = "VPC_LINK"
     ∧ HttpConnectionType.value HttpConnectionType.INTERNET = "INTERNET")
  ∧ (HttpIntegrationSubtype.value HttpIntegrationSubtype.EVENTBRIDGE_PUTEVENTS
       = "EventBridge-PutEvents"
     ∧ HttpIntegrationSubtype.value HttpIntegrationSubtype.SQS_SENDMESSAGE = "SQS-SendMessage"
     ∧ HttpIntegrationSubtype.value HttpIntegrationSubtype.SQS_RECEIVEMESSAGE
       = "SQS-ReceiveMessage"
     ∧ HttpIntegrationSubtype.value HttpIntegrationSubtype.SQS_DELETEMESSAGE
       = "SQS-DeleteMessage")
  ∧ (Inj (=) (=) CookiesCacheBehaviorType.value
     ∧ Inj (=) (=) HeadersCacheBehaviorType.value
     ∧ Inj (=) (=) QueryStringCacheBehaviorType.value
     ∧ Inj (=) (=) HttpIntegrationType.value
     ∧ Inj (=) (=) HttpConnectionType.value
     ∧ Inj (=) (=) HttpIntegrationSubtype.value).
Proof.
  repeat split; intros [] []; simpl; congruence.
Qed.

End Enums.

(** ** Resource constructors *)

Section Constructors.

(** The HTTP integration constructor has no failing path: it always
    completes, and adds exactly one record to the output tree. *)
Lemma HttpIntegration_new_done scope id props tree :
  HttpIntegration.new scope id props tree
  = Done
      ({| HttpIntegration.integrationId := ref ((scope ++ [id]) ++ ["Resource"]);
          HttpIntegration.httpApi := HttpIntegrationProps.httpApi props |},
       tree ++
       [mkNode ((scope ++ [id]) ++ ["Resource"])
          {| CfnIntegrationProps.apiId := IHttpApi.apiId (HttpIntegrationProps.httpApi props);
             CfnIntegrationProps.integrationType :=
               HttpIntegrationType.value (HttpIntegrationProps.integrationType props);
             CfnIntegrationProps.integrationSubtype :=
               HttpIntegrationSubtype.value <$> HttpIntegrationProps.integrationSubtype props;
             CfnIntegrationProps.integrationUri := HttpIntegrationProps.integrationUri props;
             CfnIntegrationProps.integrationMethod := HttpIntegrationProps.method props;
             CfnIntegrationProps.connectionId := HttpIntegrationProps.connectionId props;
             CfnIntegrationProps.connectionType :=
               HttpConnectionType.value <$> HttpIntegrationProps.connectionType props;
             CfnIntegrationProps.credentialsArn :=
               IntegrationCredentials.credentials <$> HttpIntegrationProps.credentials props;
             CfnIntegrationProps.payloadFormatVersion :=
               PayloadFormatVersion.version
                 <$> HttpIntegrationProps.payloadFormatVersion props;
             CfnIntegrationProps.requestParameters :=
               HttpIntegrationProps.requestParameters props |}]).
Proof. reflexivity. Qed.

(** So does the origin request policy constructor. *)
Lemma OriginRequestPolicy_new_done scope id props tree :
  OriginRequestPolicy.new scope id props tree
  = Done
      ({| IOriginRequestPolicy.node := scope ++ [id];
          IOriginRequestPolicy.originRequestPolicyId :=
            attr ((scope ++ [id]) ++ ["Resource"]) "Id";
          IOriginRequestPolicy.lastModifiedTime := "" |},
       tree ++
       [mkNode ((scope ++ [id]) ++ ["Resource"])
          (CfnOriginRequestPolicyProps.mk
             {| OriginRequestPolicyConfigProperty.name := OriginRequestPolicyProps.name props;
                OriginRequestPolicyConfigProperty.comment :=
                  OriginRequestPolicyProps.comment props;
                OriginRequestPolicyConfigProperty.cookiesConfig :=
                  OriginRequestPolicyProps.cookiesConfig props;
                OriginRequestPolicyConfigProperty.headersConfig :=
                  OriginRequestPolicyProps.headersConfig props;
                OriginRequestPolicyConfigProperty.queryStringsConfig :=
                  OriginRequestPolicyProps.queryStringsConfig props |})]).
Proof. reflexivity. Qed.

(** C1, as stated, fails: for the properties [Samples.untargeted], which
    name neither a subtype nor a URI, the constructor does not throw; it
    returns the integration and leaves one record in the tree. *)
Lemma HttpIntegration_untargeted_is_constructed :
  HttpIntegrationProps.integrationSubtype Samples.untargeted = None
  ∧ HttpIntegrationProps.integrationUri Samples.untargeted = None
  ∧ HttpIntegration.new Samples.stack "Integration" Samples.untargeted []
    = Done
        ({| HttpIntegration.integrationId := "${Ref:Stack/Integration/Resource}";
            HttpIntegration.httpApi := Samples.api |},
         [ mkNode ["Stack"; "Integration"; "Resource"]
             {| CfnIntegrationProps.apiId := "api-1234";
                CfnIntegrationProps.integrationType := "AWS_PROXY";
                CfnIntegrationProps.integrationSubtype := None;
                CfnIntegrationProps.integrationUri := None;
                CfnIntegrationProps.integrationMethod := None;
                CfnIntegrationProps.connectionId := None;
                CfnIntegrationProps.connectionType := None;
                CfnIntegrationProps.credentialsArn := None;
                CfnIntegrationProps.payloadFormatVersion := None;
                CfnIntegrationProps.requestParameters := None |} ])
  ∧ ¬ ∃ message,
        HttpIntegration.new Samples.stack "Integration" Samples.untargeted []
        = Thrown message.
Proof.
  repeat split. intros [message H]. discriminate H.
Qed.

(** C1, amended: when both [integrationSubtype] and [integrationUri] are
    absent the constructor performs no check of its own; it completes, and
    the one record it emits carries neither field. *)
Theorem HttpIntegration_untargeted_passes_through scope id props tree :
  HttpIntegrationProps.integrationSubtype props = None →
  HttpIntegrationProps.integrationUri props = None →
  ∃ integ node,
    HttpIntegration.new scope id props tree = Done (integ, tree ++ [node])
    ∧ CfnIntegrationProps.integrationSubtype (nodeProps node) = None
    ∧ CfnIntegrationProps.integrationUri (nodeProps node) = None.
Proof.
  intros Hsubtype Huri. eexists _, _.
  split; [apply HttpIntegration_new_done|]. cbn.
  rewrite Hsubtype, Huri. done.
Qed.

Lemma HttpIntegration_untargeted_passes_through_witness :
  ∃ integ node,
    HttpIntegration.new Samples.stack "Integration" Samples.untargeted []
    = Done (integ, [] ++ [node])
    ∧ CfnIntegrationProps.integrationSubtype (nodeProps node) = None
    ∧ CfnIntegrationProps.integrationUri (nodeProps node) = None.
Proof.
  apply (HttpIntegration_untargeted_passes_through
           Samples.stack "Integration" Samples.untargeted []); reflexivity.
Defined.

(** C6: a policy whose cookies configuration is WHITELIST with the list
    ["x-my-cookie"] is constructed, and the cookies section of the
    template rendered from its record is exactly CookieBehavior
    "whitelist" and Cookies ["x-my-cookie"]. *)
Theorem OriginRequestPolicy_cookies_whitelist scope id props tree :
  OriginRequestPolicyProps.cookiesConfig props
  = CookiesConfig.mk CookiesCacheBehaviorType.WHITELIST (Some ["x-my-cookie"]) →
  ∃ policy node,
    OriginRequestPolicy.new scope id props tree = Done (policy, tree ++ [node])
    ∧ OriginRequestPolicyConfigProperty.cookiesConfig
        (CfnOriginRequestPolicyProps.originRequestPolicyConfig (nodeProps node))
      = OriginRequestPolicyProps.cookiesConfig props
    ∧ (get "OriginRequestPolicyConfig" (renderOriginRequestPolicy (nodeProps node))
         ≫= get "CookiesConfig")
      = Some (FObject [("CookieBehavior", FString "whitelist");
                       ("Cookies", FList [FString "x-my-cookie"])]).
Proof.
  intros Hcookies. eexists _, _.
  split; [apply OriginRequestPolicy_new_done|]. split; [reflexivity|].
  cbn. rewrite Hcookies.
  destruct (OriginRequestPolicyProps.comment props); reflexivity.
Qed.

Lemma OriginRequestPolicy_cookies_whitelist_witness :
  ∃ policy node,
    OriginRequestPolicy.new Samples.stack "CustomOriginRequestPolicy" Samples.simplePolicy []
    = Done (policy, [] ++ [node])
    ∧ OriginRequestPolicyConfigProperty.cookiesConfig
        (CfnOriginRequestPolicyProps.originRequestPolicyConfig (nodeProps node))
      = OriginRequestPolicyProps.cookiesConfig Samples.simplePolicy
    ∧ (get "OriginRequestPolicyConfig" (renderOriginRequestPolicy (nodeProps node))
         ≫= get "CookiesConfig")
      = Some (FObject [("CookieBehavior", FString "whitelist");
                       ("Cookies", FList [FString "x-my-cookie"])]).
Proof.
  apply (OriginRequestPolicy_cookies_whitelist
           Samples.stack "CustomOriginRequestPolicy" Samples.simplePolicy []).
  reflexivity.
Defined.

(** The whole record of the first test renders to the template the test
    expects. *)
Example simplePolicy_renders :
  ∃ policy node,
    OriginRequestPolicy.new Samples.stack "CustomOriginRequestPolicy" Samples.simplePolicy []
    = Done (policy, [node])
    ∧ renderOriginRequestPolicy (nodeProps node)
      = FObject
          [("OriginRequestPolicyConfig",
            FObject
              [("Name", FString "OriginRequestPolicy");
               ("Comment", FString "comment");
               ("CookiesConfig",
                FObject [("CookieBehavior", FString "whitelist");
                         ("Cookies", FList [FString "x-my-cookie"])]);
               ("HeadersConfig",
                FObject [("HeaderBehavior", FString "whitelist");
                         ("Headers", FList [FString "x-my-header"])]);
               ("QueryStringsConfig",
                FObject [("QueryStringBehavior", FString "whitelist");
                         ("QueryStrings", FList [FString "myQueryString"])])])].
Proof.
  eexists _, _.
  split; [apply (OriginRequestPolicy_new_done _ _ _ [])|reflexivity].
Qed.

(** The record of the second test, which sets no list and no comment,
    renders without the corresponding keys. *)
Example differentBehaviors_render :
  ∃ policy node,
    OriginRequestPolicy.new Samples.stack "OriginRequestPolicy"
      {| OriginRequestPolicyProps.name := "DifferentOriginRequestPolicy";
         OriginRequestPolicyProps.comment := None;
         OriginRequestPolicyProps.cookiesConfig :=
           CookiesConfig.mk CookiesCacheBehaviorType.ALL None;
         OriginRequestPolicyProps.headersConfig :=
           HeadersConfig.mk HeadersCacheBehaviorType.ALL_VIEWER_AND_WHITELIST_CLOUDFRONT None;
         OriginRequestPolicyProps.queryStringsConfig :=
           QueryStringConfig.mk QueryStringCacheBehaviorType.NONE None |} []
    = Done (policy, [node])
    ∧ renderOriginRequestPolicy (nodeProps node)
      = FObject
          [("OriginRequestPolicyConfig",
            FObject
              [("Name", FString "DifferentOriginRequestPolicy");
               ("CookiesConfig", FObject [("CookieBehavior", FString "all")]);
               ("HeadersConfig",
                FObject [("HeaderBehavior", FString "allViewerAndWhitelistCloudFront")]);
               ("QueryStringsConfig", FObject [("QueryStringBehavior", FString "none")])])].
Proof.
  eexists _, _.
  split; [apply (OriginRequestPolicy_new_done _ _ _ [])|reflexivity].
Qed.

(** C10: a constructed policy and a policy looked up with [fromId] both
    have the empty [lastModifiedTime]; [fromId] completes without touching
    the output tree and its [originRequestPolicyId] is the [physicalId] it
    was given. *)
Theorem OriginRequestPolicy_lastModifiedTime :
  (∀ scope id props tree, ∃ policy node,
      OriginRequestPolicy.new scope id props tree = Done (policy, tree ++ [node])
      ∧ IOriginRequestPolicy.lastModifiedTime policy = "")
  ∧ (∀ (R : Type) scope logicalId physicalId (tree : list (Node R)), ∃ policy,
        OriginRequestPolicy.fromId scope logicalId physicalId tree = Done (policy, tree)
        ∧ IOriginRequestPolicy.lastModifiedTime policy = ""
        ∧ IOriginRequestPolicy.originRequestPolicyId policy = physicalId).
Proof.
  split.
  - intros. eexists _, _.
    split; [apply OriginRequestPolicy_new_done|reflexivity].
  - intros. eexists. repeat split.
Qed.

End Constructors.

(** ** The event bus target *)

Section EventBusTarget.

Implicit Types (s : Store) (statement : PolicyStatement) (policy : list PolicyStatement).

(** *** Attaching a statement *)

Lemma attach_elem statement policy : statement ∈ attach statement policy.
Proof. unfold attach. case_decide; set_solver. Qed.

Lemma attach_absorb statement policy :
  statement ∈ policy → attach statement policy = policy.
Proof. intros Hin. unfold attach. by rewrite decide_True. Qed.

Lemma attach_idemp statement policy :
  attach statement (attach statement policy) = attach statement policy.
Proof. apply attach_absorb, attach_elem. Qed.

Lemma attach_NoDup statement policy :
  NoDup policy → NoDup (attach statement policy).
Proof.
  intros Hnd. unfold attach. case_decide as Hin; [done|].
  apply NoDup_app. split_and!; [done| |apply NoDup_singleton].
  intros x Hx ->%list_elem_of_singleton. done.
Qed.

Lemma occurrences_NoDup statement policy :
  NoDup policy → statement ∈ policy → occurrences statement policy = 1.
Proof.
  unfold occurrences.
  induction 1 as [|x policy Hx Hnd IH]; intros Hin.
  - by apply elem_of_nil in Hin.
  - simpl. destruct (PolicyStatement_eq_dec x statement) as [->|Hne].
    + f_equal. apply count_occ_not_In. by rewrite <- list_elem_of_In.
    + apply IH. apply elem_of_cons in Hin as [->|Hin]; done.
Qed.

Lemma occurrences_attach statement policy :
  NoDup policy → occurrences statement (attach statement policy) = 1.
Proof.
  intros Hnd. apply occurrences_NoDup; [by apply attach_NoDup|apply attach_elem].
Qed.

(** *** The side table under [addToPolicy] *)

Lemma emptyStore_wf : wf_store emptyStore.
Proof. apply map_Forall_empty. Qed.

Lemma statements_NoDup s role : wf_store s → NoDup (statements s role).
Proof.
  intros Hwf. unfold statements.
  destruct (policies s !! role) as [policy|] eqn:Hrole; simpl.
  - exact (Hwf role policy Hrole).
  - apply NoDup_nil_2.
Qed.

Lemma statements_addToPolicy s role statement other :
  statements (snd (addToPolicy role statement s)) other
  = if decide (role = other) then attach statement (statements s role)
    else statements s other.
Proof.
  unfold statements at 1. simpl. rewrite lookup_insert.
  case_decide; done.
Qed.

Lemma addToPolicy_idemp s role statement :
  snd (addToPolicy role statement (snd (addToPolicy role statement s)))
  = snd (addToPolicy role statement s).
Proof.
  unfold addToPolicy at 1. rewrite statements_addToPolicy, decide_True by done.
  rewrite attach_idemp. simpl. by rewrite insert_insert_eq.
Qed.

Lemma addToPolicy_wf s role statement :
  wf_store s → wf_store (snd (addToPolicy role statement s)).
Proof.
  intros Hwf. unfold wf_store. simpl.
  apply map_Forall_insert_2; [|exact Hwf].
  by apply attach_NoDup, statements_NoDup.
Qed.

(** *** Running [bind] *)

Lemma bind_explicit this rule id s r :
  EventBus.role this = Some r →
  EventBus.bind this rule id s
  = (config_for this id r, snd (addToPolicy r (EventBus.putEventStatement this) s)).
Proof. intros Hrole. unfold EventBus.bind. rewrite Hrole. reflexivity. Qed.

Lemma bind_existing this rule id s r :
  EventBus.role this = None → eventRoles s !! rule = Some r →
  EventBus.bind this rule id s
  = (config_for this id r, snd (addToPolicy r (EventBus.putEventStatement this) s)).
Proof.
  intros Hrole Hscope. unfold EventBus.bind, singletonEventRole. rewrite Hrole.
  cbv [mbind state_bind mret state_ret forEach]. rewrite Hscope. reflexivity.
Qed.

Lemma bind_created this rule id s :
  EventBus.role this = None → eventRoles s !! rule = None →
  EventBus.bind this rule id s
  = (config_for this id (fresh (dom (policies s))),
     snd (addToPolicy (fresh (dom (policies s))) (EventBus.putEventStatement this)
            (with_created rule s))).
Proof.
  intros Hrole Hscope. unfold EventBus.bind, singletonEventRole. rewrite Hrole.
  cbv [mbind state_bind mret state_ret forEach]. rewrite Hscope. reflexivity.
Qed.

Lemma with_created_wf scope s : wf_store s → wf_store (with_created scope s).
Proof.
  intros Hwf. unfold wf_store. simpl.
  apply map_Forall_insert_2; [apply NoDup_nil_2|exact Hwf].
Qed.

Lemma with_created_statements scope s role :
  statements (with_created scope s) role = statements s role.
Proof.
  unfold statements. simpl. rewrite lookup_insert. case_decide as Heq; [|done].
  subst role. simpl.
  assert (policies s !! fresh (dom (policies s)) = None) as ->; [|done].
  apply not_elem_of_dom, is_fresh.
Qed.

(** Every [bind] settles on one principal, returns it, and leaves the side
    table as [addToPolicy] on that principal leaves it, starting from [s]
    itself or from [s] extended with the new principal of the scope. *)
Lemma bind_cases this rule id s :
  ∃ principal s0,
    EventBus.bind this rule id s
    = (config_for this id principal,
       snd (addToPolicy principal (EventBus.putEventStatement this) s0))
    ∧ (∀ role, statements s0 role = statements s role)
    ∧ (wf_store s → wf_store s0)
    ∧ match EventBus.role this with
      | Some r => principal = r ∧ s0 = s
      | None =>
          eventRoles s0 !! rule = Some principal
          ∧ match eventRoles s !! rule with
            | Some existing => principal = existing ∧ s0 = s
            | None => principal = fresh (dom (policies s)) ∧ s0 = with_created rule s
            end
      end.
Proof.
  destruct (EventBus.role this) as [r|] eqn:Hrole.
  - exists r, s. rewrite (bind_explicit _ _ _ _ r) by done. done.
  - destruct (eventRoles s !! rule) as [r|] eqn:Hscope.
    + exists r, s. rewrite (bind_existing _ _ _ _ r) by done. done.
    + exists (fresh (dom (policies s))), (with_created rule s).
      rewrite bind_created by done. split_and!; try done.
      * apply with_created_statements.
      * apply with_created_wf.
      * simpl. apply lookup_insert_eq.
Qed.

(** [bind] keeps the side table well formed. *)
Lemma bind_wf this rule id s :
  wf_store s → wf_store (snd (EventBus.bind this rule id s)).
Proof.
  intros Hwf. destruct (bind_cases this rule id s) as (r & s0 & -> & _ & Hwf0 & _).
  simpl. apply addToPolicy_wf. auto.
Qed.

(** *** What the returned fragment holds *)

(** C9: the [id] of the returned fragment is the empty string when the
    argument is absent or empty, and the argument itself when it is a
    non-empty string. *)
Theorem bind_id this (rule : IRule) s :
  RuleTargetConfig.id (fst (EventBus.bind this rule None s)) = ""
  ∧ RuleTargetConfig.id (fst (EventBus.bind this rule (Some "") s)) = ""
  ∧ ∀ c rest,
      RuleTargetConfig.id (fst (EventBus.bind this rule (Some (String c rest)) s))
      = String c rest.
Proof.
  split_and!; [| |intros c rest];
    match goal with
    | |- context [EventBus.bind this rule ?id s] =>
        destruct (bind_cases this rule id s) as (r & s0 & -> & _)
    end; reflexivity.
Qed.

(** C7: identifiers pass through unchanged.  The [arn] of the fragment
    returned by [bind] is the [eventBusArn] of the properties, and the
    [integrationUri] the low-level integration receives is the
    [integrationUri] of the properties. *)
Theorem identifiers_pass_through :
  (∀ props (rule : IRule) id s,
      RuleTargetConfig.arn (fst (EventBus.bind (EventBus.new props) rule id s))
      = EventBusProps.eventBusArn props)
  ∧ (∀ scope id props tree, ∃ integ node,
        HttpIntegration.new scope id props tree = Done (integ, tree ++ [node])
        ∧ CfnIntegrationProps.integrationUri (nodeProps node)
          = HttpIntegrationProps.integrationUri props).
Proof.
  split.
  - intros props rule id s.
    destruct (bind_cases (EventBus.new props) rule id s) as (r & s0 & -> & _).
    reflexivity.
  - intros scope id props tree. eexists _, _.
    split; [apply HttpIntegration_new_done|reflexivity].
Qed.

(** C5: resolving the same properties twice in a row, in the same scope
    and under the same id, returns the same fragment both times: same id,
    same arn, same role reference. *)
Theorem bind_deterministic props (rule : IRule) id s :
  fst (EventBus.bind (EventBus.new props) rule id
         (snd (EventBus.bind (EventBus.new props) rule id s)))
  = fst (EventBus.bind (EventBus.new props) rule id s).
Proof.
  set (this := EventBus.new props).
  destruct (bind_cases this rule id s) as (r & s0 & Hfirst & _ & _ & Hsel).
  rewrite Hfirst. simpl.
  destruct (EventBus.role this) as [r'|] eqn:Hrole.
  - destruct Hsel as [-> _]. by rewrite (bind_explicit _ _ _ _ r').
  - destruct Hsel as [Hscope _]. by rewrite (bind_existing _ _ _ _ r).
Qed.

(** *** The capability statement *)

(** C2: binding the same target twice against the same principal, which
    is the explicit role whatever the two scopes or the principal
    synthesized for the one scope, leaves exactly one events:PutEvents
    statement for the target's ARN on the principal, not two: that
    statement, whose only action is events:PutEvents and whose only
    resource is the ARN, occurs once in the principal's policy after the
    first binding and once after the second; the second binding settles on
    the same principal and changes nothing in the side table. *)
Theorem bind_twice_one_statement this (rule1 rule2 : IRule) id1 id2 s :
  wf_store s →
  is_Some (EventBus.role this) ∨ rule2 = rule1 →
  let first := EventBus.bind this rule1 id1 s in
  let second := EventBus.bind this rule2 id2 (snd first) in
  let putEvents :=
    {| actions := ["events:PutEvents"]; resources := [EventBus.eventBusArn this] |} in
  ∃ principal,
    RuleTargetConfig.role (fst first) = Some principal
    ∧ RuleTargetConfig.role (fst second) = Some principal
    ∧ putEvents ∈ statements (snd first) principal
    ∧ occurrences putEvents (statements (snd first) principal) = 1
    ∧ occurrences putEvents (statements (snd second) principal) = 1
    ∧ statements (snd second) principal = statements (snd first) principal
    ∧ snd second = snd first.
Proof.
  intros Hwf Hsame_principal first second putEvents.
  change putEvents with (EventBus.putEventStatement this). clear putEvents.
  destruct (bind_cases this rule1 id1 s) as (r & s0 & Hfirst & Hsame & Hwf0 & Hsel).
  set (s1 := snd (addToPolicy r (EventBus.putEventStatement this) s0)) in *.
  assert (EventBus.bind this rule2 id2 s1
          = (config_for this id2 r,
             snd (addToPolicy r (EventBus.putEventStatement this) s1))) as Hsecond.
  { destruct (EventBus.role this) as [r'|] eqn:Hrole.
    - destruct Hsel as [-> _]. by apply bind_explicit.
    - destruct Hsame_principal as [[? [=]]| ->].
      destruct Hsel as [Hscope _]. by apply bind_existing. }
  assert (statements s1 r
          = attach (EventBus.putEventStatement this) (statements s0 r)) as Hpolicy.
  { subst s1. by rewrite statements_addToPolicy, decide_True. }
  assert (occurrences (EventBus.putEventStatement this) (statements s1 r) = 1) as Hone.
  { rewrite Hpolicy. apply occurrences_attach, statements_NoDup. auto. }
  assert (EventBus.putEventStatement this ∈ statements s1 r) as Hin.
  { rewrite Hpolicy. apply attach_elem. }
  exists r. subst first second. rewrite Hfirst. cbn [fst snd].
  rewrite Hsecond. cbn [fst snd]. subst s1. rewrite addToPolicy_idemp.
  split_and!; done.
Qed.

Lemma bind_twice_one_statement_witness :
  wf_store Samples.boundOnce
  ∧ ∃ principal,
      RuleTargetConfig.role
        (fst (EventBus.bind Samples.plainBus Samples.rule (Some "Target1") Samples.boundOnce))
      = Some principal
      ∧ occurrences
          {| actions := ["events:PutEvents"]; resources := [Samples.busArn] |}
          (statements
             (snd (EventBus.bind Samples.plainBus Samples.rule (Some "Target2")
                     (snd (EventBus.bind Samples.plainBus Samples.rule (Some "Target1")
                             Samples.boundOnce))))
             principal)
        = 1.
Proof.
  assert (wf_store Samples.boundOnce) as Hwf.
  { apply (bool_decide_unpack _). vm_compute. exact I. }
  split; [exact Hwf|].
  destruct (bind_twice_one_statement Samples.plainBus Samples.rule Samples.rule
              (Some "Target1") (Some "Target2") Samples.boundOnce Hwf
              (or_intror eq_refl))
    as (principal & Hfirst & _ & _ & _ & Hone & _).
  exists principal. split; [exact Hfirst|exact Hone].
Defined.

(** The same for an explicit role bound in two different scopes. *)
Example roledBus_bound_in_two_scopes :
  let first := EventBus.bind Samples.roledBus Samples.rule (Some "Target1") emptyStore in
  let second := EventBus.bind Samples.roledBus ["Stack"; "OtherRule"] None (snd first) in
  RuleTargetConfig.role (fst first) = Some 7%positive
  ∧ RuleTargetConfig.role (fst second) = Some 7%positive
  ∧ statements (snd second) 7%positive
    = [ {| actions := ["events:PutEvents"]; resources := [Samples.busArn] |} ]
  ∧ eventRoles (snd second) = ∅.
Proof.
  intros first second. subst first second.
  rewrite !(bind_explicit Samples.roledBus _ _ _ 7%positive) by done.
  cbn [fst snd]. rewrite addToPolicy_idemp.
  rewrite statements_addToPolicy, decide_True by done.
  split_and!; done.
Qed.

(** C3: what one binding grants.  The statement allows events:PutEvents
    on the target's ARN and nothing else.  Without an explicit role the
    binding settles on the one principal the side table holds for the
    scope, creating it when the scope has none, and every later role-less
    binding in that scope gets the same principal.  With an explicit role
    the binding settles on that role.  In both cases the returned fragment
    carries the principal, the statement is on it exactly once, and
    nothing else in the side table changes. *)
Theorem bind_grants_putEvents props (rule : IRule) id s :
  wf_store s →
  let this := EventBus.new props in
  let statement := EventBus.putEventStatement this in
  let result := EventBus.bind this rule id s in
  actions statement = ["events:PutEvents"]
  ∧ resources statement = [EventBusProps.eventBusArn props]
  ∧ ∃ principal,
      RuleTargetConfig.role (fst result) = Some principal
      ∧ statements (snd result) principal = attach statement (statements s principal)
      ∧ occurrences statement (statements (snd result) principal) = 1
      ∧ (∀ other, other ≠ principal → statements (snd result) other = statements s other)
      ∧ match EventBusProps.role props with
        | Some r => principal = r ∧ eventRoles (snd result) = eventRoles s
        | None =>
            eventRoles (snd result) !! rule = Some principal
            ∧ (∀ scope, scope ≠ rule →
                 eventRoles (snd result) !! scope = eventRoles s !! scope)
            ∧ (match eventRoles s !! rule with
               | Some existing => principal = existing
               | None =>
                   (principal ∉ dom (policies s))
                   ∧ statements (snd result) principal = [statement]
               end)
            ∧ (∀ props' id',
                 EventBusProps.role props' = None →
                 RuleTargetConfig.role
                   (fst (EventBus.bind (EventBus.new props') rule id' (snd result)))
                 = Some principal)
        end.
Proof.
  intros Hwf this statement result.
  split; [reflexivity|]. split; [reflexivity|].
  destruct (bind_cases this rule id s) as (r & s0 & Hbind & Hsame & Hwf0 & Hsel).
  exists r. subst statement result. rewrite Hbind. cbn [fst snd].
  assert (statements (snd (addToPolicy r (EventBus.putEventStatement this) s0)) r
          = attach (EventBus.putEventStatement this) (statements s r)) as Hmine.
  { by rewrite statements_addToPolicy, decide_True, Hsame. }
  split; [reflexivity|]. split; [exact Hmine|]. split.
  { rewrite Hmine. by apply occurrences_attach, statements_NoDup. }
  split.
  { intros other Hother. by rewrite statements_addToPolicy, decide_False, Hsame. }
  change (EventBus.role this) with (EventBusProps.role props) in Hsel.
  destruct (EventBusProps.role props) as [r'|] eqn:Hrole.
  - destruct Hsel as [-> ->]. done.
  - destruct Hsel as [Hscope Hsel]. split; [exact Hscope|]. split_and!.
    + intros scope Hne. simpl.
      destruct (eventRoles s !! rule); destruct Hsel as [_ ->]; [done|].
      simpl. by rewrite lookup_insert_ne.
    + destruct (eventRoles s !! rule) as [existing|]; destruct Hsel as [-> Hs0]; [done|].
      split; [apply is_fresh|].
      rewrite Hmine. unfold statements at 1.
      assert (policies s !! fresh (dom (policies s)) = None) as ->; [|done].
      apply not_elem_of_dom, is_fresh.
    + intros props' id' Hrole'.
      by rewrite (bind_existing (EventBus.new props') rule id' _ r).
Qed.

Lemma bind_grants_putEvents_witness :
  wf_store emptyStore
  ∧ ∃ principal,
      RuleTargetConfig.role
        (fst (EventBus.bind (EventBus.new (EventBusProps.mk Samples.busArn None))
                Samples.rule (Some "Target0") emptyStore))
      = Some principal
      ∧ statements Samples.boundOnce principal
        = [ {| actions := ["events:PutEvents"]; resources := [Samples.busArn] |} ].
Proof.
  assert (wf_store emptyStore) as Hwf.
  { apply (bool_decide_unpack _). vm_compute. exact I. }
  split; [exact Hwf|].
  destruct (bind_grants_putEvents (EventBusProps.mk Samples.busArn None) Samples.rule
              (Some "Target0") emptyStore Hwf)
    as (_ & _ & principal & Hrole & _ & _ & _ & _ & _ & [_ Hpolicy] & _).
  exists principal. split; [exact Hrole|exact Hpolicy].
Defined.

(** The first role-less binding in a fresh side table, evaluated: principal
    [1] is created for the scope and holds the one statement. *)
Example first_bind_evaluated :
  fst (EventBus.bind Samples.plainBus Samples.rule (Some "Target0") emptyStore)
  = {| RuleTargetConfig.id := "Target0";
       RuleTargetConfig.arn := Samples.busArn;
       RuleTargetConfig.role := Some 1%positive |}
  ∧ Samples.boundOnce
    = mkStore
        {[ 1%positive := [ {| actions := ["events:PutEvents"];
                              resources := [Samples.busArn] |} ] ]}
        {[ Samples.rule := 1%positive ]}.
Proof.
  rewrite bind_created by done. split; [reflexivity|].
  unfold Samples.boundOnce. rewrite bind_created by done.
  unfold addToPolicy, with_created, statements. cbn [snd policies eventRoles].
  change (fresh (dom (∅ : gmap positive (list PolicyStatement)))) with 1%positive.
  rewrite lookup_insert_eq, insert_insert_eq. cbn [default attach].
  f_equal.
Qed.

(** A second target with another ARN, bound in the same scope, shares the
    principal and adds its own statement after the first. *)
Example second_target_shares_principal :
  let otherArn := "arn:aws:events:us-east-1:111111111111:event-bus/other" in
  let result :=
    EventBus.bind (EventBus.new (EventBusProps.mk otherArn None)) Samples.rule None
      Samples.boundOnce in
  RuleTargetConfig.role (fst result) = Some 1%positive
  ∧ RuleTargetConfig.id (fst result) = ""
  ∧ statements (snd result) 1%positive
    = [ {| actions := ["events:PutEvents"]; resources := [Samples.busArn] |};
        {| actions := ["events:PutEvents"]; resources := [otherArn] |} ].
Proof.
  intros otherArn result. subst result.
  destruct first_bind_evaluated as [_ Hstore].
  rewrite (bind_existing _ _ _ _ 1%positive); [|done|by rewrite Hstore].
  cbn [fst snd]. split_and!; [done..|].
  rewrite statements_addToPolicy, decide_True by done.
  unfold statements. rewrite Hstore. cbn [policies].
  rewrite lookup_singleton_eq. reflexivity.
Qed.

End EventBusTarget.

(** ** Further properties of the HTTP integration *)

Section IntegrationRecord.

(** X1: the constructor writes no default.  Each optional property is
    absent from the emitted record exactly when it is absent from the
    properties: in particular no [connectionType] and no
    [payloadFormatVersion] is filled in. *)
Theorem HttpIntegration_writes_no_default scope id props tree :
  ∃ integ node,
    HttpIntegration.new scope id props tree = Done (integ, tree ++ [node])
    ∧ (CfnIntegrationProps.integrationSubtype (nodeProps node) = None
       ↔ HttpIntegrationProps.integrationSubtype props = None)
    ∧ (CfnIntegrationProps.integrationUri (nodeProps node) = None
       ↔ HttpIntegrationProps.integrationUri props = None)
    ∧ (CfnIntegrationProps.integrationMethod (nodeProps node) = None
       ↔ HttpIntegrationProps.method props = None)
    ∧ (CfnIntegrationProps.connectionId (nodeProps node) = None
       ↔ HttpIntegrationProps.connectionId props = None)
    ∧ (CfnIntegrationProps.connectionType (nodeProps node) = None
       ↔ HttpIntegrationProps.connectionType props = None)
    ∧ (CfnIntegrationProps.credentialsArn (nodeProps node) = None
       ↔ HttpIntegrationProps.credentials props = None)
    ∧ (CfnIntegrationProps.payloadFormatVersion (nodeProps node) = None
       ↔ HttpIntegrationProps.payloadFormatVersion props = None)
    ∧ (CfnIntegrationProps.requestParameters (nodeProps node) = None
       ↔ HttpIntegrationProps.requestParameters props = None).
Proof.
  eexists _, _. split; [apply HttpIntegration_new_done|]. cbn.
  rewrite !fmap_None. done.
Qed.

(** X2: nothing is lost on the way to the low-level resource.  Two
    property objects for which the constructor returns the same
    integration and the same tree are the same property object. *)
Theorem HttpIntegration_new_inj scope id props1 props2 tree :
  HttpIntegration.new scope id props1 tree = HttpIntegration.new scope id props2 tree →
  props1 = props2.
Proof.
  rewrite !HttpIntegration_new_done. intros [= Hapi Hnode%app_inv_head].
  injection Hnode as _ Hty Hsub Huri Hmethod Hcid Hct Hcred Hpfv Hrp.
  destruct props1 as [api1 ty1 sub1 uri1 m1 cid1 ct1 cred1 pfv1 rp1].
  destruct props2 as [api2 ty2 sub2 uri2 m2 cid2 ct2 cred2 pfv2 rp2].
  cbn in *. subst.
  f_equal.
  - by destruct ty1, ty2.
  - destruct sub1 as [[]|], sub2 as [[]|]; by try discriminate.
  - destruct ct1 as [[]|], ct2 as [[]|]; by try discriminate.
  - destruct cred1 as [[]|], cred2 as [[]|]; cbn in *; congruence.
  - destruct pfv1 as [[]|], pfv2 as [[]|]; cbn in *; congruence.
Qed.

Lemma HttpIntegration_new_inj_witness :
  Samples.untargeted = Samples.untargeted.
Proof.
  apply (HttpIntegration_new_inj Samples.stack "Integration" _ _ []). reflexivity.
Defined.

(** X3: credentials reach the record as their ARN.  Credentials made with
    [fromRole] give the role's ARN, [useCallerIdentity] gives the
    any-user pattern, and without credentials the record has none. *)
Theorem HttpIntegration_credentialsArn scope id tree api type subtype uri method
    connectionId connectionType version parameters :
  let props credentials :=
    HttpIntegrationProps.mk api type subtype uri method connectionId connectionType
      credentials version parameters in
  (∀ role, ∃ integ node,
      HttpIntegration.new scope id
        (props (Some (IntegrationCredentials.fromRole role))) tree
      = Done (integ, tree ++ [node])
      ∧ CfnIntegrationProps.credentialsArn (nodeProps node) = Some (IRole.roleArn role))
  ∧ (∃ integ node,
        HttpIntegration.new scope id
          (props (Some IntegrationCredentials.useCallerIdentity)) tree
        = Done (integ, tree ++ [node])
        ∧ CfnIntegrationProps.credentialsArn (nodeProps node)
          = Some "arn:aws:iam::*:user/*")
  ∧ (∃ integ node,
        HttpIntegration.new scope id (props None) tree = Done (integ, tree ++ [node])
        ∧ CfnIntegrationProps.credentialsArn (nodeProps node) = None).
Proof.
  intros props. split_and!; [intros role| |];
    (eexists _, _; split; [apply HttpIntegration_new_done|reflexivity]).
Qed.

(** X4: the payload format version reaches the record as its string.  A
    [custom] version gives the string it was made from, whatever that
    string is, the two named versions give "1.0" and "2.0", and every
    version is [custom] of its own string. *)
Theorem HttpIntegration_payloadFormatVersion scope id tree api type subtype uri method
    connectionId connectionType credentials parameters :
  let props version :=
    HttpIntegrationProps.mk api type subtype uri method connectionId connectionType
      credentials version parameters in
  (∀ v, ∃ integ node,
      HttpIntegration.new scope id (props (Some (PayloadFormatVersion.custom v))) tree
      = Done (integ, tree ++ [node])
      ∧ CfnIntegrationProps.payloadFormatVersion (nodeProps node) = Some v)
  ∧ (∃ integ node,
        HttpIntegration.new scope id (props (Some PayloadFormatVersion.VERSION_1_0)) tree
        = Done (integ, tree ++ [node])
        ∧ CfnIntegrationProps.payloadFormatVersion (nodeProps node) = Some "1.0")
  ∧ (∃ integ node,
        HttpIntegration.new scope id (props (Some PayloadFormatVersion.VERSION_2_0)) tree
        = Done (integ, tree ++ [node])
        ∧ CfnIntegrationProps.payloadFormatVersion (nodeProps node) = Some "2.0")
  ∧ (∀ p, PayloadFormatVersion.custom (PayloadFormatVersion.version p) = p).
Proof.
  intros props. split_and!; [intros v| | |by intros []];
    (eexists _, _; split; [apply HttpIntegration_new_done|reflexivity]).
Qed.

(** X5: what the constructor returns agrees with what it emits.  The
    record sits at child "Resource" of the new construct, [integrationId]
    is the reference to that node, the returned [httpApi] is the one of
    the properties and its [apiId] is the record's; nothing already in
    the tree is changed. *)
Theorem HttpIntegration_agrees_with_record scope id props tree :
  ∃ integ node,
    HttpIntegration.new scope id props tree = Done (integ, tree ++ [node])
    ∧ nodePath node = scope ++ [id; "Resource"]
    ∧ HttpIntegration.integrationId integ = ref (nodePath node)
    ∧ HttpIntegration.httpApi integ = HttpIntegrationProps.httpApi props
    ∧ CfnIntegrationProps.apiId (nodeProps node)
      = IHttpApi.apiId (HttpIntegration.httpApi integ)
    ∧ CfnIntegrationProps.integrationType (nodeProps node)
      = HttpIntegrationType.value (HttpIntegrationProps.integrationType props).
Proof.
  eexists _, _. split; [apply HttpIntegration_new_done|]. cbn.
  rewrite <- app_assoc. done.
Qed.

End IntegrationRecord.

(** ** Further properties of the event bus target *)

Section BindControlFlow.

Variable add : positive → PolicyStatement → State unit.
Variable single : list string → list PolicyStatement → State positive.

(** [EventBus.bind] is [bindWith] at the two operations of the side
    table. *)
Lemma bind_is_bindWith this (rule : IRule) id s :
  EventBus.bind this rule id s = bindWith addToPolicy singletonEventRole this rule id s.
Proof. reflexivity. Qed.

(** X6: the [id] argument names the fragment and does nothing else.
    Whatever the two IAM-side operations do, two bindings that differ only
    in [id] leave the same side table and return the same [arn] and the
    same role. *)
Theorem bindWith_id_only_names this (rule : IRule) id1 id2 s :
  snd (bindWith add single this rule id1 s) = snd (bindWith add single this rule id2 s)
  ∧ RuleTargetConfig.arn (fst (bindWith add single this rule id1 s))
    = RuleTargetConfig.arn (fst (bindWith add single this rule id2 s))
  ∧ RuleTargetConfig.role (fst (bindWith add single this rule id1 s))
    = RuleTargetConfig.role (fst (bindWith add single this rule id2 s)).
Proof.
  unfold bindWith. cbv [mbind state_bind mret state_ret].
  destruct (EventBus.role this) as [r|].
  - destruct (add r (EventBus.putEventStatement this) s) as [[] s']. done.
  - destruct (single rule [EventBus.putEventStatement this] s) as [r s']. done.
Qed.

(** X7: with an explicit role, [bind] does not look at the rule and never
    asks for the scope's shared principal.  It hands the statement to
    [addToPolicy] on that role, once, and returns that role. *)
Theorem bindWith_explicit_role single' this (rule rule' : IRule) id s r :
  EventBus.role this = Some r →
  bindWith add single this rule id s
  = (config_for this id r, snd (add r (EventBus.putEventStatement this) s))
  ∧ bindWith add single' this rule' id s = bindWith add single this rule id s.
Proof.
  intros Hrole. unfold bindWith. cbv [mbind state_bind mret state_ret].
  rewrite Hrole.
  destruct (add r (EventBus.putEventStatement this) s) as [[] s']. done.
Qed.

(** X8: without a role, [bind] itself attaches nothing.  The principal
    it returns and the side table it leaves are those of
    [singletonEventRole] called on the rule with the one statement. *)
Theorem bindWith_no_role add' this (rule : IRule) id s :
  EventBus.role this = None →
  bindWith add single this rule id s
  = (config_for this id (fst (single rule [EventBus.putEventStatement this] s)),
     snd (single rule [EventBus.putEventStatement this] s))
  ∧ bindWith add' single this rule id s = bindWith add single this rule id s.
Proof.
  intros Hrole. unfold bindWith. cbv [mbind state_bind mret state_ret].
  rewrite Hrole.
  destruct (single rule [EventBus.putEventStatement this] s) as [r s']. done.
Qed.

(** X9: the statement is scoped to the target and to nothing else.  Two
    targets have the same statement exactly when they have the same ARN,
    whatever their roles, and the one resource of the statement is the
    [arn] of the fragment that [bind] returns. *)
Theorem putEventStatement_scope this other (rule : IRule) id s :
  (EventBus.putEventStatement this = EventBus.putEventStatement other
   ↔ EventBus.eventBusArn this = EventBus.eventBusArn other)
  ∧ resources (EventBus.putEventStatement this)
    = [RuleTargetConfig.arn (fst (bindWith add single this rule id s))].
Proof.
  split.
  - unfold EventBus.putEventStatement. split; [intros [= ->]|intros ->]; done.
  - unfold bindWith. cbv [mbind state_bind mret state_ret].
    destruct (EventBus.role this) as [r|].
    + destruct (add r (EventBus.putEventStatement this) s) as [[] s']. done.
    + destruct (single rule [EventBus.putEventStatement this] s) as [r s']. done.
Qed.

End BindControlFlow.

Lemma bindWith_explicit_role_witness :
  EventBus.bind Samples.roledBus ["Stack"; "OtherRule"] (Some "T") emptyStore
  = EventBus.bind Samples.roledBus Samples.rule (Some "T") emptyStore.
Proof.
  rewrite !bind_is_bindWith.
  apply (bindWith_explicit_role addToPolicy singletonEventRole singletonEventRole
           Samples.roledBus Samples.rule ["Stack"; "OtherRule"] (Some "T") emptyStore
           7%positive).
  reflexivity.
Defined.

Lemma bindWith_no_role_witness :
  bindWith (λ _ _ s, (tt, emptyStore)) singletonEventRole
    Samples.plainBus Samples.rule None emptyStore
  = EventBus.bind Samples.plainBus Samples.rule None emptyStore.
Proof.
  rewrite bind_is_bindWith.
  apply (bindWith_no_role addToPolicy singletonEventRole (λ _ _ s, (tt, emptyStore))
           Samples.plainBus Samples.rule None emptyStore).
  reflexivity.
Defined.

(** ** Further properties of the origin request policy and of the enums *)

Section PolicyAndEnums.

(** X10: looking a constructed policy up by its id gives the same view of
    it.  [fromId] called with the [originRequestPolicyId] of a policy the
    constructor made returns an object with that id and the same
    [lastModifiedTime], and adds nothing to the tree. *)
Theorem OriginRequestPolicy_fromId_of_new scope id props tree scope' logicalId :
  ∃ policy node imported,
    OriginRequestPolicy.new scope id props tree = Done (policy, tree ++ [node])
    ∧ IOriginRequestPolicy.originRequestPolicyId policy = attr (nodePath node) "Id"
    ∧ OriginRequestPolicy.fromId scope' logicalId
        (IOriginRequestPolicy.originRequestPolicyId policy) (tree ++ [node])
      = Done (imported, tree ++ [node])
    ∧ IOriginRequestPolicy.originRequestPolicyId imported
      = IOriginRequestPolicy.originRequestPolicyId policy
    ∧ IOriginRequestPolicy.lastModifiedTime imported
      = IOriginRequestPolicy.lastModifiedTime policy
    ∧ IOriginRequestPolicy.node imported = scope' ++ [logicalId].
Proof.
  eexists _, _, _. split; [apply OriginRequestPolicy_new_done|].
  split; [reflexivity|]. split; [reflexivity|]. done.
Qed.

(** X12: the policy constructor loses nothing.  Two property objects for
    which it returns the same policy and the same tree have the same name,
    comment and three configurations: they are the same property
    object. *)
Theorem OriginRequestPolicy_new_inj scope id props1 props2 tree :
  OriginRequestPolicy.new scope id props1 tree = OriginRequestPolicy.new scope id props2 tree →
  props1 = props2.
Proof.
  rewrite !OriginRequestPolicy_new_done. intros [= Hnode%app_inv_head].
  injection Hnode as Hname Hcomment Hcookies Hheaders Hqueries.
  destruct props1, props2. cbn in *. by subst.
Qed.

Lemma OriginRequestPolicy_new_inj_witness :
  Samples.simplePolicy = Samples.simplePolicy.
Proof.
  apply (OriginRequestPolicy_new_inj Samples.stack "Policy" _ _ []). reflexivity.
Defined.

(** X11: the three behaviour enums on the wire.  Cookie and query-string
    behaviours have the same literals member for member: NONE, WHITELIST
    and ALL each have the same value in both enums, and each enum has no
    other member.  No header behaviour has the literal "all"; and no
    member of any of the six enums has the empty string as value. *)
Theorem behaviour_literals :
  (CookiesCacheBehaviorType.value CookiesCacheBehaviorType.NONE
   = QueryStringCacheBehaviorType.value QueryStringCacheBehaviorType.NONE
   ∧ CookiesCacheBehaviorType.value CookiesCacheBehaviorType.WHITELIST
     = QueryStringCacheBehaviorType.value QueryStringCacheBehaviorType.WHITELIST
   ∧ CookiesCacheBehaviorType.value CookiesCacheBehaviorType.ALL
     = QueryStringCacheBehaviorType.value QueryStringCacheBehaviorType.ALL)
  ∧ (∀ c, c = CookiesCacheBehaviorType.NONE ∨ c = CookiesCacheBehaviorType.WHITELIST
          ∨ c = CookiesCacheBehaviorType.ALL)
  ∧ (∀ q, q = QueryStringCacheBehaviorType.NONE ∨ q = QueryStringCacheBehaviorType.WHITELIST
          ∨ q = QueryStringCacheBehaviorType.ALL)
  ∧ (∀ c, ∃ q, QueryStringCacheBehaviorType.value q = CookiesCacheBehaviorType.value c)
  ∧ (∀ q, ∃ c, CookiesCacheBehaviorType.value c = QueryStringCacheBehaviorType.value q)
  ∧ (∀ h, HeadersCacheBehaviorType.value h ≠ "all")
  ∧ (∀ c, CookiesCacheBehaviorType.value c ≠ "")
  ∧ (∀ h, HeadersCacheBehaviorType.value h ≠ "")
  ∧ (∀ q, QueryStringCacheBehaviorType.value q ≠ "")
  ∧ (∀ x, HttpIntegrationType.value x ≠ "")
  ∧ (∀ x, HttpConnectionType.value x ≠ "")
  ∧ (∀ x, HttpIntegrationSubtype.value x ≠ "").
Proof.
  split_and!; try reflexivity; try (intros []; done); try (intros []; tauto).
  - intros []; [exists QueryStringCacheBehaviorType.NONE
               |exists QueryStringCacheBehaviorType.WHITELIST
               |exists QueryStringCacheBehaviorType.ALL]; done.
  - intros []; [exists CookiesCacheBehaviorType.NONE
               |exists CookiesCacheBehaviorType.WHITELIST
               |exists CookiesCacheBehaviorType.ALL]; done.
Qed.

End PolicyAndEnums.
